(** * matgendb/__init__.py: the package initialisation module of pymatgen-db

    The file under verification is a package stub: a docstring, three
    metadata bindings and one relative import,

      from .query_engine import QueryEngine

    Its behaviour is the behaviour of the Python import system on these five
    statements.  The development therefore has three layers:

    - the abstract syntax of the statements the file is made of, and the file
      itself as a value of that syntax ([matgendb_init]);
    - an executable interpreter for module bodies over an explicit interpreter
      state (module objects by identity, and the module registry
      [sys.modules]), written in a small state-and-exception monad;
    - theorems about running [matgendb_init] in an arbitrary environment.

    The sibling module [query_engine] is not part of the verified file.  It
    enters as a parameter: the environment says whether a module of a given
    dotted name can be found, and what running its body yields. *)

From stdpp Require Import base strings gmap fin_maps fin_sets list.

Local Open Scope string_scope.

(** ** Values, namespaces and interpreter state *)

(** Module objects are compared by identity; [loc] is that identity. *)
Definition loc := positive.

(** The values that occur in module namespaces.  [VObj] stands for any object
    whose structure the file never inspects (a class, a function, ...), kept
    apart by its identity. *)
Inductive value : Type :=
  | VNone
  | VStr (s : string)
  | VStrList (l : list string)
  | VModule (m : loc)
  | VObj (id : N).

Global Instance value_eq_dec : EqDecision value.
Proof. solve_decision. Defined.

(** A module's [__dict__]. *)
Abbreviation namespace := (gmap string value).

(** Exceptions.  [ModuleNotFoundError] is the subclass of [ImportError] the
    import system raises when no module of that name is found;
    [CannotImportName name from] is the [ImportError] raised by
    [from M import name] when [M] has no such attribute; [ImportError] is any
    other instance of that class.  [OtherError cls msg] is an exception of
    another class ([KeyError], [TypeError], ...). *)
Inductive exn : Type :=
  | ModuleNotFoundError (name : string)
  | CannotImportName (name from : string)
  | ImportError (msg : string)
  | NameError (name : string)
  | OtherError (cls msg : string).

Global Instance exn_eq_dec : EqDecision exn.
Proof. solve_decision. Defined.

(** The interpreter state the import system reads and writes: the module
    objects that exist, by identity, and the registry [sys.modules] from
    dotted names to module objects. *)
Record interp : Type := Interp {
  objects : gmap loc namespace;
  sys_modules : gmap string loc
}.

(** ** The state-and-exception monad

    A computation takes the interpreter state and returns either an exception
    or a result, together with the state it leaves behind.  A raised exception
    does not roll the state back. *)
Definition M (A : Type) : Type := interp -> (exn + A) * interp.

Definition ret {A} (a : A) : M A := fun st => (inr a, st).
Definition raise {A} (e : exn) : M A := fun st => (inl e, st).
Definition bind {A B} (m : M A) (k : A -> M B) : M B :=
  fun st =>
    match m st with
    | (inl e, st') => (inl e, st')
    | (inr a, st') => k a st'
    end.
Definition get : M interp := fun st => (inr st, st).
Definition lift {A} (r : exn + A) : M A := fun st => (r, st).

(** [try_except m handler]: run [m]; on an exception, run the handler on it. *)
Definition try_except {A} (m : M A) (handler : exn -> M A) : M A :=
  fun st =>
    match m st with
    | (inl e, st') => handler e st'
    | r => r
    end.

Declare Scope py_scope.
Delimit Scope py_scope with py.
Notation "x <- c1 ;; c2" := (bind c1 (fun x => c2))
  (at level 100, c1 at next level, right associativity) : py_scope.
Notation "c1 ;;; c2" := (bind c1 (fun _ => c2))
  (at level 100, right associativity) : py_scope.
Local Open Scope py_scope.

(** Reading and writing attributes of module objects. *)
Definition getattr (st : interp) (m : loc) (x : string) : option value :=
  objects st !! m ≫= fun ns => ns !! x.

Definition hasattr (st : interp) (m : loc) (x : string) : bool :=
  bool_decide (is_Some (getattr st m x)).

Definition setattr (m : loc) (x : string) (v : value) : M unit :=
  fun st => (inr tt, Interp (alter (fun ns => <[x := v]> ns) m (objects st))
                            (sys_modules st)).

(** Creating a module object: a new identity, not used by any object so far. *)
Definition new_module (ns : namespace) : M loc :=
  fun st =>
    let l := fresh (dom (objects st)) in
    (inr l, Interp (<[l := ns]> (objects st)) (sys_modules st)).

Definition register (name : string) (m : loc) : M unit :=
  fun st => (inr tt, Interp (objects st) (<[name := m]> (sys_modules st))).

Definition unregister (name : string) : M unit :=
  fun st => (inr tt, Interp (objects st) (delete name (sys_modules st))).

(** ** Dotted module names *)

(** [split_on c s] is Python's [s.split(c)] for a one-character separator. *)
Fixpoint split_on (c : Ascii.ascii) (s : string) : list string :=
  match s with
  | EmptyString => [EmptyString]
  | String a s' =>
      if Ascii.eqb a c then EmptyString :: split_on c s'
      else match split_on c s' with
           | [] => [String a EmptyString]
           | h :: t => String a h :: t
           end
  end.

Definition dot : Ascii.ascii := Eval cbv in Ascii.ascii_of_nat 46.

(** The components of a dotted name, last component first, and back. *)
Definition rcomponents (name : string) : list string := rev (split_on dot name).
Definition dotted (rcomps : list string) : string := String.concat "." (rev rcomps).

(** [name.rpartition('.')[0]]: the name of the parent package, or [""]. *)
Definition parent_name (name : string) : string := dotted (tail (rcomponents name)).

(** [importlib._bootstrap._resolve_name]: the absolute name a relative import
    of [name] at [level] refers to, inside [package].  The package is split
    from the right at most [level - 1] times and the first piece is the
    base; with nothing to bound the splitting (level 0) that piece is the
    first component. *)
Definition resolve_name (name package : string) (level : nat) : exn + string :=
  let bits := split_on dot package in
  if decide (length bits < level)%nat then
    inl (ImportError "attempted relative import beyond top-level package")
  else
    let base :=
      match level with
      | O => default "" (head bits)
      | S k => String.concat "." (take (length bits - k) bits)
      end in
    inr (if decide (name = "") then base else base +:+ "." +:+ name).

(** ** The environment: what lies outside the file

    Code of other modules is not interpreted.  A module the finders locate is
    described by where it was found, whether it is a package (it then has
    search locations of its own, its [__path__]) and what running its body
    yields: the names the body leaves bound, or the exception it raises. *)
Inductive body_outcome : Type :=
  | Returns (bindings : namespace)
  | Raises (e : exn).

Record found_module : Type := FoundModule {
  fm_origin : string;
  fm_search : option (list string);
  fm_body : body_outcome
}.

Record environment : Type := Environment {
  package_dir : string;                       (* where matgendb/ was found *)
  builtins : namespace;                       (* the builtins module *)
  finder : string -> option found_module      (* the path finders *)
}.

(** The attributes the import system sets on a module object before running
    its body ([_init_module_attrs]).  The remaining bookkeeping attributes
    ([__loader__], [__spec__], [__cached__], [__builtins__]) are not read by
    the statements modelled here and are left out. *)
Definition module_attrs (name origin : string) (search : option (list string))
  : namespace :=
  let pkg := match search with Some _ => name | None => parent_name name end in
  let ns : namespace :=
    <["__file__" := VStr origin]>
    (<["__package__" := VStr pkg]>
    (<["__doc__" := VNone]>
    (<["__name__" := VStr name]> ∅))) in
  match search with
  | Some path => <["__path__" := VStrList path]> ns
  | None => ns
  end.

(** ** The import system

    The functions below follow [importlib._bootstrap], function by function,
    on the paths a [from .m import x] statement can take.  What the model
    leaves out:
    - code of other modules is not run: a module body is known by its
      outcome, the names it leaves bound or the exception it raises.  What
      such code does besides (the modules it imports in turn, which stay
      registered, and any write to another module) is outside the model;
    - [IMPORT_FROM] is attribute access on the imported module, as in the
      interpreters the package was written for; the later fallback to a
      partially initialised submodule found in the registry is not modelled;
    - the registry holds module objects only (no [None] entries), and
      [__spec__] is not consulted when the package of a relative import is
      computed. *)

Section ImportSystem.
Variable env : environment.

(** [_load_unlocked]: create the module, register it, run its body; a
    module whose body raises is taken out of the registry again.  The body's
    bindings are laid over the attributes set at creation. *)
Definition load_unlocked (name : string) (fm : found_module) : M loc :=
  m <- new_module (module_attrs name (fm_origin fm) (fm_search fm)) ;;
  register name m ;;;
  match fm_body fm with
  | Returns bindings =>
      (fun st => (inr tt, Interp (alter (fun ns => bindings ∪ ns) m (objects st))
                                 (sys_modules st))) ;;;
      ret m
  | Raises e => unregister name ;;; raise e
  end.

Definition find_spec_and_load (name : string) : M loc :=
  match finder env name with
  | None => raise (ModuleNotFoundError name)
  | Some fm => load_unlocked name fm
  end.

(** [_find_and_load]: a registered module is returned as it is.  Otherwise
    the parent package is imported first, the module is found on the
    parent's [__path__], loaded, and bound as an attribute of the parent.
    The name is given by its components, last first. *)
Fixpoint find_and_load (rcomps : list string) : M loc :=
  let name := dotted rcomps in
  st <- get ;;
  match sys_modules st !! name with
  | Some m => ret m
  | None =>
      match rcomps with
      | [] => raise (OtherError "ValueError" "Empty module name")
      | _ :: [] => find_spec_and_load name
      | child :: rparent =>
          let parent := dotted rparent in
          (if decide (is_Some (sys_modules st !! parent)) then ret tt
           else find_and_load rparent ;;; ret tt) ;;;
          st1 <- get ;;
          match sys_modules st1 !! name with
          | Some m => ret m
          | None =>
              match sys_modules st1 !! parent with
              | None => raise (OtherError "KeyError" parent)
              | Some pm =>
                  if hasattr st1 pm "__path__" then
                    m <- find_spec_and_load name ;;
                    st2 <- get ;;
                    match sys_modules st2 !! parent with
                    | None => raise (OtherError "KeyError" parent)
                    | Some pm' => setattr pm' child (VModule m) ;;; ret m
                    end
                  else raise (ModuleNotFoundError name)
              end
          end
      end
  end.

Definition gcd_import (name : string) : M loc :=
  find_and_load (rcomponents name).

(** [_handle_fromlist] (CPython 2's [ensure_fromlist]): for a package, a
    name in the from-list that is not yet an attribute is tried as a
    submodule; that no such submodule exists is not an error here.  The
    submodule's name is formed from [name], the name under which the
    package was imported. *)
Definition import_submodule_if_missing (name : string) (m : loc) (x : string)
  : M unit :=
  st <- get ;;
  if hasattr st m x then ret tt
  else
    let from_name := name +:+ "." +:+ x in
    try_except (gcd_import from_name ;;; ret tt)
      (fun e => if decide (e = ModuleNotFoundError from_name)
                then ret tt else raise e).

Fixpoint handle_fromlist (name : string) (m : loc) (fromlist : list string)
  : M unit :=
  match fromlist with
  | [] => ret tt
  | x :: rest =>
      import_submodule_if_missing name m x ;;; handle_fromlist name m rest
  end.

(** [_calc___package__], and the sanity check of an import: an absolute
    import needs a name, a relative one a package. *)
Definition calc_package (globals : namespace) : exn + string :=
  match globals !! "__package__" with
  | Some (VStr p) => inr p
  | Some VNone | None =>
      match globals !! "__name__" with
      | Some (VStr n) =>
          inr (if decide (is_Some (globals !! "__path__")) then n
               else parent_name n)
      | Some _ => inl (OtherError "TypeError" "__name__ must be a string")
      | None => inl (OtherError "KeyError" "__name__")
      end
  | Some _ => inl (OtherError "TypeError" "package must be a string")
  end.

Definition absolute_name (globals : namespace) (modname : string) (level : nat)
  : exn + string :=
  match level with
  | O =>
      if decide (modname = "") then
        inl (OtherError "ValueError" "Empty module name")
      else inr modname
  | S _ =>
      match calc_package globals with
      | inl e => inl e
      | inr package =>
          if decide (package = "") then
            inl (ImportError
                   "attempted relative import with no known parent package")
          else resolve_name modname package level
      end
  end.

(** [__import__(modname, globals, locals, fromlist, level)] with a
    non-empty from-list: the module named is imported and returned. *)
Definition import_name (self : loc) (level : nat) (modname : string)
    (fromlist : list string) : M loc :=
  st <- get ;;
  name <- lift (absolute_name (default ∅ (objects st !! self)) modname level) ;;
  m <- gcd_import name ;;
  st1 <- get ;;
  (if hasattr st1 m "__path__" then handle_fromlist name m fromlist
   else ret tt) ;;;
  ret m.

(** The [__name__] of a module object, if it is a string. *)
Definition module_name (st : interp) (m : loc) : option string :=
  match getattr st m "__name__" with
  | Some (VStr n) => Some n
  | _ => None
  end.

(** [IMPORT_FROM]: attribute access on the imported module; a missing
    attribute is reported as an [ImportError] that names the module. *)
Definition import_from (m : loc) (x : string) : M value :=
  st <- get ;;
  match getattr st m x with
  | Some v => ret v
  | None =>
      raise (CannotImportName x
               (default "<unknown module name>" (module_name st m)))
  end.

End ImportSystem.

(** ** Abstract syntax of module bodies

    The fragment of Python the file is written in, with one more form of
    expression (a name) so that "constant binding" is a property a statement
    can fail to have. *)
Inductive expr : Type :=
  | EStr (s : string)
  | EName (x : string).

Inductive stmt : Type :=
  | SExpr (e : expr)
  | SAssign (target : string) (e : expr)
  | SImportFrom (level : nat) (module : string) (names : list string).

(** ** The source file, matgendb/__init__.py *)

Definition docstring : string :=
"
Pymatgen-db is a database add-on for the Python Materials Genomics (pymatgen)
materials analysis library. It enables the creation of Materials
Project-style MongoDB databases for management of materials data and
provides a clean and intuitive web ui for exploring that data. A query engine
is also provided to enable the easy translation of MongoDB docs to useful
pymatgen objects for analysis purposes.
".

Definition matgendb_init : list stmt :=
  [ SExpr (EStr docstring);
    SAssign "__author__" (EStr "Shyue Ping Ong, Dan Gunter");
    SAssign "__date__" (EStr "Oct 9 2014");
    SAssign "__version__" (EStr "0.4.3");
    SImportFrom 1 "query_engine" ["QueryEngine"] ].

(** The name under which the package is imported, and what the relative
    import of its last statement resolves to. *)
Definition package_name : string := "matgendb".
Definition sibling_name : string := "matgendb.query_engine".

(** ** Executing a module body *)

Section Exec.
Variable env : environment.

(** [LOAD_NAME] at module level: the module's namespace, then builtins. *)
Definition load_name (self : loc) (x : string) : M value :=
  st <- get ;;
  match getattr st self x with
  | Some v => ret v
  | None =>
      match builtins env !! x with
      | Some v => ret v
      | None => raise (NameError x)
      end
  end.

Definition eval_expr (self : loc) (e : expr) : M value :=
  match e with
  | EStr s => ret (VStr s)
  | EName x => load_name self x
  end.

(** [from M import a, b]: one [IMPORT_NAME], then for each name an
    [IMPORT_FROM] and a [STORE_NAME]. *)
Fixpoint import_names (self m : loc) (names : list string) : M unit :=
  match names with
  | [] => ret tt
  | x :: rest =>
      v <- import_from m x ;;
      setattr self x v ;;;
      import_names self m rest
  end.

Definition exec_stmt (self : loc) (s : stmt) : M unit :=
  match s with
  | SExpr e => eval_expr self e ;;; ret tt
  | SAssign target e => v <- eval_expr self e ;; setattr self target v
  | SImportFrom level modname names =>
      m <- import_name env self level modname names ;;
      import_names self m names
  end.

Fixpoint exec_block (self : loc) (body : list stmt) : M unit :=
  match body with
  | [] => ret tt
  | s :: rest => exec_stmt self s ;;; exec_block self rest
  end.

(** A string literal as first statement is the module's docstring: it is
    compiled to a store into [__doc__]. *)
Definition exec_module (self : loc) (body : list stmt) : M unit :=
  match body with
  | SExpr (EStr doc) :: rest =>
      setattr self "__doc__" (VStr doc) ;;; exec_block self rest
  | _ => exec_block self body
  end.

(** Loading the package: the module object is created with its import
    attributes and registered, then the body runs with that object's
    namespace as globals.  If the body raises, the package is taken out of
    the registry and the exception propagates. *)
Definition load_package : M loc :=
  self <- new_module
            (module_attrs package_name (package_dir env +:+ "/__init__.py")
                          (Some [package_dir env])) ;;
  register package_name self ;;;
  try_except (exec_module self matgendb_init)
             (fun e => unregister package_name ;;; raise e) ;;;
  ret self.

(** [import matgendb]: a package already in the registry is not run again. *)
Definition import_package : M loc :=
  st <- get ;;
  match sys_modules st !! package_name with
  | Some m => ret m
  | None => load_package
  end.

End Exec.

(** ** Observations on the result *)

(** The namespace of a module object in a state. *)
Definition namespace_of (st : interp) (m : loc) : namespace :=
  default ∅ (objects st !! m).

Definition underscore : Ascii.ascii := Eval cbv in Ascii.ascii_of_nat 95.

Definition starts_with_underscore (x : string) : bool :=
  match x with
  | String a _ => Ascii.eqb a underscore
  | EmptyString => false
  end.


Definition public_names (ns : namespace) : gset string :=
  filter (fun x => starts_with_underscore x = false) (dom ns).

(** ** Static description of a module body *)

(** A constant binding stores a string literal; a docstring is a string
    literal on its own.  Neither reads a name, calls anything or branches. *)
Definition is_constant_binding (s : stmt) : bool :=
  match s with
  | SExpr (EStr _) | SAssign _ (EStr _) => true
  | _ => false
  end.

Definition is_import (s : stmt) : bool :=
  match s with
  | SImportFrom _ _ _ => true
  | _ => false
  end.

(** The names a statement stores into the namespace it runs in. *)
Definition stmt_targets (s : stmt) : list string :=
  match s with
  | SExpr _ => []
  | SAssign target _ => [target]
  | SImportFrom _ _ names => names
  end.

(** The names a module body stores: [__doc__] for a docstring, then the
    targets of its statements in order. *)
Definition bound_names (body : list stmt) : list string :=
  match body with
  | SExpr (EStr _) :: rest => "__doc__" :: concat (map stmt_targets rest)
  | _ => concat (map stmt_targets body)
  end.


(** ** The run of the package body, stage by stage *)

(** The object the package module is created as. *)
Definition package_object (st : interp) : loc := fresh (dom (objects st)).

(** The package namespace when the import statement is reached: the import
    attributes, with the docstring and the three metadata bindings stored. *)
Definition prelude_ns (env : environment) : namespace :=
  <["__version__" := VStr "0.4.3"]>
  (<["__date__" := VStr "Oct 9 2014"]>
  (<["__author__" := VStr "Shyue Ping Ong, Dan Gunter"]>
  (<["__doc__" := VStr docstring]>
  (module_attrs package_name (package_dir env +:+ "/__init__.py")
                (Some [package_dir env]))))).

Definition prelude_state (env : environment) (st : interp) : interp :=
  Interp (<[package_object st := prelude_ns env]> (objects st))
         (<[package_name := package_object st]> (sys_modules st)).

(** The last statement of the file. *)
Definition import_stmt (env : environment) (self : loc) : M unit :=
  exec_stmt env self (SImportFrom 1 "query_engine" ["QueryEngine"]).

(** The name [QueryEngine] is tried under when the sibling turns out to be a
    package without such an attribute. *)
Definition submodule_name : string := "matgendb.query_engine.QueryEngine".

(** The import of a submodule [name] (last component [child]) whose parent
    package is registered as the object [pm], as a relation between the state
    before, and the result and the state after. *)
Inductive submodule_import (env : environment) (name child : string) (pm : loc)
    (st : interp) : exn + loc -> interp -> Prop :=
  | import_cached m :
      sys_modules st !! name = Some m ->
      submodule_import env name child pm st (inr m) st
  | import_not_a_package :
      sys_modules st !! name = None ->
      hasattr st pm "__path__" = false ->
      submodule_import env name child pm st (inl (ModuleNotFoundError name)) st
  | import_not_found :
      sys_modules st !! name = None ->
      hasattr st pm "__path__" = true ->
      finder env name = None ->
      submodule_import env name child pm st (inl (ModuleNotFoundError name)) st
  | import_body_raises fm e :
      sys_modules st !! name = None ->
      hasattr st pm "__path__" = true ->
      finder env name = Some fm ->
      fm_body fm = Raises e ->
      submodule_import env name child pm st (inl e)
        (Interp (<[fresh (dom (objects st)) :=
                     module_attrs name (fm_origin fm) (fm_search fm)]> (objects st))
                (sys_modules st))
  | import_loaded fm b :
      sys_modules st !! name = None ->
      hasattr st pm "__path__" = true ->
      finder env name = Some fm ->
      fm_body fm = Returns b ->
      submodule_import env name child pm st (inr (fresh (dom (objects st))))
        (Interp (alter (fun ns => <[child := VModule (fresh (dom (objects st)))]> ns) pm
                   (<[fresh (dom (objects st)) :=
                        b ∪ module_attrs name (fm_origin fm) (fm_search fm)]>
                      (objects st)))
                (<[name := fresh (dom (objects st))]> (sys_modules st))).

(** What the from-list handling leaves behind when it does not raise: nothing
    happens unless the sibling [s] is a package without the attribute; then
    the submodule is imported, and its absence is passed over. *)
Inductive fromlist_done (env : environment) (s : loc) (st : interp)
    : interp -> Prop :=
  | fromlist_not_a_package :
      hasattr st s "__path__" = false -> fromlist_done env s st st
  | fromlist_has_attribute :
      hasattr st s "QueryEngine" = true -> fromlist_done env s st st
  | fromlist_no_submodule st' :
      hasattr st s "__path__" = true ->
      hasattr st s "QueryEngine" = false ->
      submodule_import env submodule_name "QueryEngine" s st
        (inl (ModuleNotFoundError submodule_name)) st' ->
      fromlist_done env s st st'
  | fromlist_submodule q st' :
      hasattr st s "__path__" = true ->
      hasattr st s "QueryEngine" = false ->
      submodule_import env submodule_name "QueryEngine" s st (inr q) st' ->
      fromlist_done env s st st'.

(** The run of [from .query_engine import QueryEngine] in the package object
    [p], from the state [st]. *)
Inductive import_query_engine (env : environment) (p : loc) (st : interp)
    : exn + unit -> interp -> Prop :=
  | iqe_sibling_fails e st1 :
      submodule_import env sibling_name "query_engine" p st (inl e) st1 ->
      import_query_engine env p st (inl e) st1
  | iqe_submodule_fails s st1 e st2 :
      submodule_import env sibling_name "query_engine" p st (inr s) st1 ->
      hasattr st1 s "__path__" = true ->
      hasattr st1 s "QueryEngine" = false ->
      submodule_import env submodule_name "QueryEngine" s st1 (inl e) st2 ->
      e ≠ ModuleNotFoundError submodule_name ->
      import_query_engine env p st (inl e) st2
  | iqe_no_attribute s st1 st2 :
      submodule_import env sibling_name "query_engine" p st (inr s) st1 ->
      fromlist_done env s st1 st2 ->
      getattr st2 s "QueryEngine" = None ->
      import_query_engine env p st
        (inl (CannotImportName "QueryEngine"
                (default "<unknown module name>" (module_name st2 s)))) st2
  | iqe_bound s st1 st2 v :
      submodule_import env sibling_name "query_engine" p st (inr s) st1 ->
      fromlist_done env s st1 st2 ->
      getattr st2 s "QueryEngine" = Some v ->
      import_query_engine env p st (inr tt)
        (Interp (alter (fun ns => <["QueryEngine" := v]> ns) p (objects st2))
                (sys_modules st2)).

(** Why the import statement can fail, in terms of the state [st] it starts
    from and the state [st'] it leaves. *)
Inductive import_failure (env : environment) (st st' : interp) : exn -> Prop :=
  | sibling_not_found :
      sys_modules st !! sibling_name = None ->
      finder env sibling_name = None ->
      import_failure env st st' (ModuleNotFoundError sibling_name)
  | sibling_body_raised fm e :
      sys_modules st !! sibling_name = None ->
      finder env sibling_name = Some fm ->
      fm_body fm = Raises e ->
      import_failure env st st' e
  | submodule_body_raised fm e :
      finder env submodule_name = Some fm ->
      fm_body fm = Raises e ->
      import_failure env st st' e
  | attribute_missing s from :
      sys_modules st' !! sibling_name = Some s ->
      getattr st' s "QueryEngine" = None ->
      import_failure env st st' (CannotImportName "QueryEngine" from).

(** The sibling module is available and defines [QueryEngine] as [v]: it is
    registered with that attribute, or it is found and its body binds it. *)
Inductive sibling_provides (env : environment) (st : interp) (v : value) : Prop :=
  | provided_registered s :
      sys_modules st !! sibling_name = Some s ->
      getattr st s "QueryEngine" = Some v ->
      sibling_provides env st v
  | provided_found fm b :
      sys_modules st !! sibling_name = None ->
      finder env sibling_name = Some fm ->
      fm_body fm = Returns b ->
      b !! "QueryEngine" = Some v ->
      sibling_provides env st v.

(** The sibling module as the registry of a state has it. *)
Definition sibling_of (st : interp) : option namespace :=
  sys_modules st !! sibling_name ≫= fun s => objects st !! s.

(** ** Concrete environments

    A fresh interpreter, an installation in which [query_engine.py] sits next
    to the package and defines a class [QueryEngine] (besides a name it
    imported itself), and an installation in which it is absent. *)
Definition st_empty : interp := Interp ∅ ∅.

Definition query_engine_module : found_module :=
  FoundModule "/site/matgendb/query_engine.py" None
    (Returns (<["QueryEngine" := VObj 1]> (<["pymongo" := VObj 2]> ∅))).

Definition env_with_sibling : environment :=
  Environment "/site/matgendb" ∅
    (fun name => if decide (name = sibling_name) then Some query_engine_module
                 else None).

Definition env_without_sibling : environment :=
  Environment "/site/matgendb" ∅ (fun _ => None).

(** Another installation of the same sibling module, and an interpreter in
    which an unrelated module has already been imported. *)
Definition env_elsewhere : environment :=
  Environment "/opt/lib/matgendb" ∅
    (fun name => if decide (name = sibling_name) then Some query_engine_module
                 else None).

Definition st_busy : interp :=
  Interp (<[1%positive := <["__name__" := VStr "os"]> ∅]> ∅)
         (<["os" := 1%positive]> ∅).

(** The attributes the package object is created with. *)
Definition package_attrs (env : environment) : namespace :=
  module_attrs package_name (package_dir env +:+ "/__init__.py")
               (Some [package_dir env]).

(** ** A vendored copy of the package

    An interpreter in which the package has been copied into another one,
    under the name [vendor.matgendb], and its sibling module is imported. *)
Definition st_vendored : interp :=
  Interp (<[2%positive := <["QueryEngine" := VObj 1]>
                            (<["__name__" := VStr "vendor.matgendb.query_engine"]> ∅)]>
         (<[1%positive := <["__package__" := VStr "vendor.matgendb"]> ∅]> ∅))
         (<["vendor.matgendb.query_engine" := 2%positive]> ∅).

(** The object the sibling module is created as, when the import of the
    package has to load it: the first identity free once the package object
    exists. *)
Definition sibling_object (env : environment) (st : interp) : loc :=
  fresh (dom (objects (prelude_state env st))).

(** An installation whose [query_engine.py] defines no [QueryEngine]. *)
Definition env_without_class : environment :=
  Environment "/site/matgendb" ∅
    (fun name =>
       if decide (name = sibling_name)
       then Some (FoundModule "/site/matgendb/query_engine.py" None
                    (Returns (<["pymongo" := VObj 2]> ∅)))
       else None).

(** An installation whose [query_engine.py] cannot be run: it imports a
    library that is not installed. *)
Definition env_broken_sibling : environment :=
  Environment "/site/matgendb" ∅
    (fun name =>
       if decide (name = sibling_name)
       then Some (FoundModule "/site/matgendb/query_engine.py" None
                    (Raises (ModuleNotFoundError "pymongo")))
       else None).


(** * Properties *)

(** ** The interpreter, stage by stage *)

Lemma hasattr_true st m x : hasattr st m x = true <-> is_Some (getattr st m x).
Proof. unfold hasattr. by rewrite bool_decide_eq_true. Qed.

Lemma hasattr_false st m x : hasattr st m x = false <-> getattr st m x = None.
Proof. unfold hasattr. rewrite bool_decide_eq_false. by rewrite eq_None_not_Some. Qed.

Lemma package_object_fresh st : objects st !! package_object st = None.
Proof. unfold package_object. apply not_elem_of_dom. apply is_fresh. Qed.

Lemma fresh_object_ne st l ns : objects st !! l = Some ns -> l ≠ fresh (dom (objects st)).
Proof.
  intros Hl ->. pose proof (package_object_fresh st) as Hf.
  unfold package_object in Hf. congruence.
Qed.

(** Finding and loading a module that is not registered. *)
Lemma find_spec_and_load_eq env name st :
  sys_modules st !! name = None ->
  find_spec_and_load env name st =
    match finder env name with
    | None => (inl (ModuleNotFoundError name), st)
    | Some fm =>
        let m := fresh (dom (objects st)) in
        let attrs := module_attrs name (fm_origin fm) (fm_search fm) in
        match fm_body fm with
        | Returns b =>
            (inr m, Interp (<[m := b ∪ attrs]> (objects st))
                           (<[name := m]> (sys_modules st)))
        | Raises e => (inl e, Interp (<[m := attrs]> (objects st)) (sys_modules st))
        end
    end.
Proof.
  intros Hnone. unfold find_spec_and_load.
  destruct (finder env name) as [fm|]; [|done].
  unfold load_unlocked, bind, new_module, register, unregister, raise, ret.
  cbn [objects sys_modules].
  destruct (fm_body fm) as [b|e]; cbn [objects sys_modules].
  - by rewrite alter_insert_eq.
  - by rewrite delete_insert_eq, delete_id.
Qed.

(** [find_and_load] on a name of at least two components whose parent is
    registered. *)
Lemma find_and_load_child env child par rest pm st :
  let name := dotted (child :: par :: rest) in
  let parent := dotted (par :: rest) in
  name ≠ parent ->
  sys_modules st !! parent = Some pm ->
  find_and_load env (child :: par :: rest) st =
    match sys_modules st !! name with
    | Some m => (inr m, st)
    | None =>
        if hasattr st pm "__path__" then
          match find_spec_and_load env name st with
          | (inr m, st') =>
              (inr m, Interp (alter (fun ns => <[child := VModule m]> ns) pm (objects st'))
                             (sys_modules st'))
          | r => r
          end
        else (inl (ModuleNotFoundError name), st)
    end.
Proof.
  intros name parent Hne Hpar.
  cbn [find_and_load]. fold name parent. unfold bind at 1, get at 1.
  destruct (sys_modules st !! name) as [m|] eqn:Hname; [done|].
  unfold bind at 1. rewrite decide_True by (rewrite Hpar; eauto).
  unfold ret at 1, bind at 1, get at 1. rewrite Hname, Hpar.
  destruct (hasattr st pm "__path__"); [|done].
  rewrite (find_spec_and_load_eq env name st Hname). unfold bind at 1.
  rewrite (find_spec_and_load_eq env name st Hname).
  destruct (finder env name) as [fm|]; [|done].
  destruct (fm_body fm) as [b|e]; [|done].
  unfold bind, get, setattr, ret; cbn [objects sys_modules].
  rewrite lookup_insert_ne by done. by rewrite Hpar.
Qed.

Lemma find_and_load_submodule env child par rest pm st r st' :
  dotted (child :: par :: rest) ≠ dotted (par :: rest) ->
  sys_modules st !! dotted (par :: rest) = Some pm ->
  find_and_load env (child :: par :: rest) st = (r, st') ->
  submodule_import env (dotted (child :: par :: rest)) child pm st r st'.
Proof.
  intros Hne Hpar. rewrite (find_and_load_child env child par rest pm st Hne Hpar).
  set (name := dotted (child :: par :: rest)).
  destruct (sys_modules st !! name) as [m|] eqn:Hname.
  { intros [= <- <-]. by constructor. }
  destruct (hasattr st pm "__path__") eqn:Hpath.
  2:{ intros [= <- <-]. by constructor. }
  rewrite (find_spec_and_load_eq env _ st Hname).
  destruct (finder env name) as [fm|] eqn:Hfind.
  2:{ intros [= <- <-]. by constructor. }
  destruct (fm_body fm) as [b|e] eqn:Hbody; cbn zeta; intros [= <- <-].
  - by eapply import_loaded.
  - by eapply import_body_raises.
Qed.

Lemma gcd_import_sibling env st p r st' :
  sys_modules st !! package_name = Some p ->
  gcd_import env sibling_name st = (r, st') ->
  submodule_import env sibling_name "query_engine" p st r st'.
Proof.
  intros Hp. unfold gcd_import.
  change (rcomponents sibling_name) with ["query_engine"; "matgendb"].
  by apply (find_and_load_submodule env "query_engine" "matgendb" [] p st).
Qed.

Lemma gcd_import_submodule env st s r st' :
  sys_modules st !! sibling_name = Some s ->
  gcd_import env submodule_name st = (r, st') ->
  submodule_import env submodule_name "QueryEngine" s st r st'.
Proof.
  intros Hp. unfold gcd_import.
  change (rcomponents submodule_name) with ["QueryEngine"; "query_engine"; "matgendb"].
  by apply (find_and_load_submodule env "QueryEngine" "query_engine" ["matgendb"] s st).
Qed.

(** What a submodule import does to the registry and to the objects. *)
Lemma submodule_import_registered env name child pm st m st' :
  submodule_import env name child pm st (inr m) st' ->
  sys_modules st' !! name = Some m.
Proof.
  inversion 1; subst; [done|]. cbn. apply lookup_insert_eq.
Qed.

Lemma submodule_import_registry_mono env name child pm st r st' k m :
  submodule_import env name child pm st r st' ->
  sys_modules st !! k = Some m -> sys_modules st' !! k = Some m.
Proof.
  inversion 1; subst; try done. intros Hk. cbn.
  rewrite lookup_insert_ne; [done|congruence].
Qed.

Lemma submodule_import_objects env name child pm st r st' l ns :
  submodule_import env name child pm st r st' ->
  objects st !! l = Some ns -> l ≠ pm ->
  objects st' !! l = Some ns.
Proof.
  inversion 1; subst; try done; intros Hl Hne; cbn.
  - rewrite lookup_insert_ne; [done|]. symmetry. by eapply fresh_object_ne.
  - rewrite lookup_alter_ne by done.
    rewrite lookup_insert_ne; [done|]. symmetry. by eapply fresh_object_ne.
Qed.

Lemma submodule_import_parent env name child pm st r st' ns :
  submodule_import env name child pm st r st' ->
  objects st !! pm = Some ns ->
  objects st' !! pm =
    Some (match r with
          | inr m => if decide (is_Some (sys_modules st !! name)) then ns
                     else <[child := VModule m]> ns
          | inl _ => ns
          end).
Proof.
  inversion 1; subst; try done; intros Hl; cbn.
  - rewrite decide_True; [done|]. eauto.
  - rewrite lookup_insert_ne; [done|]. symmetry. by eapply fresh_object_ne.
  - rewrite decide_False by (rewrite H0; by intros [? ?]).
    rewrite lookup_alter_eq, lookup_insert_ne; [by rewrite Hl|].
    symmetry. by eapply fresh_object_ne.
Qed.

(** The import statement runs as [import_query_engine] describes. *)
Lemma import_stmt_runs env p st ns r st' :
  objects st !! p = Some ns ->
  absolute_name ns "query_engine" 1 = inr sibling_name ->
  sys_modules st !! package_name = Some p ->
  import_stmt env p st = (r, st') ->
  import_query_engine env p st r st'.
Proof.
  intros Hp Habs Hreg. unfold import_stmt, exec_stmt, import_name.
  unfold bind at 1 2, get at 1. rewrite Hp.
  change (default ∅ (Some ns)) with ns. rewrite Habs.
  unfold lift at 1, bind at 1 2.
  destruct (gcd_import env sibling_name st) as [[e|s] st1] eqn:Hsib;
    apply (gcd_import_sibling env st p _ _ Hreg) in Hsib.
  { intros [= <- <-]. by constructor. }
  pose proof (submodule_import_registered _ _ _ _ _ _ _ Hsib) as Hs.
  unfold get at 1, bind at 1. cbn [handle_fromlist import_names].
  assert (Hfinish : forall st2, fromlist_done env s st1 st2 ->
    (v <- import_from s "QueryEngine";; setattr p "QueryEngine" v;;; ret ()) st2 = (r, st') ->
    import_query_engine env p st r st').
  { intros st2 Hdone. cbv beta iota delta [bind get ret raise import_from setattr].
    destruct (getattr st2 s "QueryEngine") as [v|] eqn:Hv; intros [= <- <-].
    - by eapply iqe_bound.
    - by eapply iqe_no_attribute. }
  destruct (hasattr st1 s "__path__") eqn:Hpath.
  2:{ unfold ret at 1 2, bind at 1 2. apply Hfinish. by constructor. }
  unfold import_submodule_if_missing. unfold bind at 1 2 3 4, get at 1.
  destruct (hasattr st1 s "QueryEngine") eqn:Hattr.
  { unfold ret at 1 2 3. apply Hfinish. by apply fromlist_has_attribute. }
  change (sibling_name +:+ "." +:+ "QueryEngine") with submodule_name.
  unfold try_except, bind at 1.
  destruct (gcd_import env submodule_name st1) as [[e|q] st2] eqn:Hsub;
    apply (gcd_import_submodule env st1 s _ _ Hs) in Hsub.
  - destruct (decide (e = ModuleNotFoundError submodule_name)) as [->|Hne].
    + unfold ret at 1 2 3. apply Hfinish. by eapply fromlist_no_submodule.
    + unfold raise at 1. intros [= <- <-]. by eapply iqe_submodule_fails.
  - unfold ret at 1 2 3 4. apply Hfinish. by eapply fromlist_submodule.
Qed.

Lemma prelude_package env st :
  objects (prelude_state env st) !! package_object st = Some (prelude_ns env).
Proof. apply lookup_insert_eq. Qed.

Lemma prelude_registered env st :
  sys_modules (prelude_state env st) !! package_name = Some (package_object st).
Proof. apply lookup_insert_eq. Qed.

(** Loading the package: the first four statements lead to the prelude state,
    and the outcome is that of the import statement from there. *)
Lemma load_package_unfold env st :
  load_package env st =
    match import_stmt env (package_object st) (prelude_state env st) with
    | (inl e, st') =>
        (inl e, Interp (objects st') (delete package_name (sys_modules st')))
    | (inr _, st') => (inr (package_object st), st')
    end.
Proof.
  unfold load_package, import_stmt, prelude_state, prelude_ns, package_object.
  unfold bind, new_module, register, try_except, exec_module, matgendb_init.
  cbn [exec_block exec_stmt eval_expr].
  unfold bind, ret, setattr, raise, unregister. cbn [objects sys_modules fst snd].
  rewrite !alter_insert_eq.
  set (X := import_name _ _ _ _ _ _). destruct X as [[e|m] st']; [done|].
  destruct (import_names _ _ _ st') as [[e|[]] st'']; done.
Qed.

Lemma load_package_runs env st r st' :
  load_package env st = (r, st') ->
  exists r1 st1,
    import_query_engine env (package_object st) (prelude_state env st) r1 st1 /\
    match r1 with
    | inl e => r = inl e /\
               st' = Interp (objects st1) (delete package_name (sys_modules st1))
    | inr _ => r = inr (package_object st) /\ st' = st1
    end.
Proof.
  rewrite load_package_unfold.
  destruct (import_stmt env _ _) as [r1 st1] eqn:Himp.
  apply (import_stmt_runs env _ _ (prelude_ns env)) in Himp;
    [| apply prelude_package | done | apply prelude_registered].
  intros Hrun. exists r1, st1. split; [done|].
  destruct r1; by injection Hrun as <- <-.
Qed.

Lemma submodule_import_failed_objects env name child pm st e st' l ns :
  submodule_import env name child pm st (inl e) st' ->
  objects st !! l = Some ns -> objects st' !! l = Some ns.
Proof.
  inversion 1; subst; try done; intros Hl; cbn.
  rewrite lookup_insert_ne; [done|]. symmetry. by eapply fresh_object_ne.
Qed.

(** The from-list handling keeps the registry, and changes no object other
    than the sibling, which may gain the attribute [QueryEngine]. *)
Lemma fromlist_done_registry_mono env s st st' k m :
  fromlist_done env s st st' ->
  sys_modules st !! k = Some m -> sys_modules st' !! k = Some m.
Proof.
  destruct 1; try done; by eapply submodule_import_registry_mono.
Qed.

Lemma fromlist_done_objects env s st st' l ns :
  fromlist_done env s st st' ->
  objects st !! l = Some ns ->
  exists ns', objects st' !! l = Some ns' /\
    (l ≠ s -> ns' = ns) /\
    (forall v, <["QueryEngine" := v]> ns' = <["QueryEngine" := v]> ns).
Proof.
  destruct 1 as [| |st' Hpath Hattr Himp|q st' Hpath Hattr Himp]; intros Hl;
    try by (exists ns).
  - exists ns. split; [|done]. by eapply submodule_import_failed_objects.
  - destruct (decide (l = s)) as [->|Hne].
    + rewrite (submodule_import_parent _ _ _ _ _ _ _ _ Himp Hl).
      eexists; split; [done|]. split; [done|]. intros v.
      case_decide; [done|]. by rewrite insert_insert_eq.
    + exists ns. split; [|done]. by eapply submodule_import_objects.
Qed.

Section ImportStatement.
Context (env : environment) (p : loc) (st : interp) (nsp : namespace).
Hypothesis Hp : objects st !! p = Some nsp.
Hypothesis Hpath : hasattr st p "__path__" = true.

(** A successful run binds, in the package, the sibling's [QueryEngine]
    and, if the sibling had to be loaded, the sibling itself. *)
Lemma import_query_engine_bound st' :
  import_query_engine env p st (inr tt) st' ->
  exists s v,
    sys_modules st' !! sibling_name = Some s /\
    getattr st' s "QueryEngine" = Some v /\
    objects st' !! p =
      Some (<["QueryEngine" := v]>
              (if decide (is_Some (sys_modules st !! sibling_name)) then nsp
               else <["query_engine" := VModule s]> nsp)).
Proof.
  inversion 1 as [| | |s st1 st2 v Hsib Hdone Hv]; subst.
  exists s, v.
  pose proof (submodule_import_registered _ _ _ _ _ _ _ Hsib) as Hs.
  pose proof (submodule_import_parent _ _ _ _ _ _ _ _ Hsib Hp) as Hp1.
  destruct (fromlist_done_objects _ _ _ _ _ _ Hdone Hp1) as (nsp2 & Hp2 & _ & Hins).
  cbn [sys_modules objects]. split; [by eapply fromlist_done_registry_mono|].
  split.
  - unfold getattr in *. cbn [objects].
    destruct (decide (s = p)) as [->|Hne].
    + rewrite lookup_alter_eq, Hp2. cbn. apply lookup_insert_eq.
    + by rewrite lookup_alter_ne.
  - rewrite lookup_alter_eq, Hp2. cbn. by rewrite Hins.
Qed.

(** The registry only grows, and only by the sibling and its submodule. *)
Lemma import_query_engine_registry_mono r st' k m :
  import_query_engine env p st r st' ->
  sys_modules st !! k = Some m -> sys_modules st' !! k = Some m.
Proof.
  destruct 1; intros Hk; cbn [sys_modules];
    eauto using submodule_import_registry_mono, fromlist_done_registry_mono.
Qed.
End ImportStatement.

Section ImportStatementOutcome.
Context (env : environment) (p : loc) (st : interp) (nsp : namespace).
Hypothesis Hp : objects st !! p = Some nsp.
Hypothesis Hpath : hasattr st p "__path__" = true.

Lemma import_query_engine_failure e st' :
  import_query_engine env p st (inl e) st' ->
  import_failure env st st' e.
Proof.
  inversion 1 as [e' st1 Hsib|s st1 e' st2 Hsib Hpkg Hattr Hsub Hne
                 |s st1 st2 Hsib Hdone Hv|]; subst.
  - inversion Hsib; subst.
    + congruence.
    + by apply sibling_not_found.
    + by eapply sibling_body_raised.
  - inversion Hsub; subst; try congruence. by eapply submodule_body_raised.
  - eapply attribute_missing; [|done].
    eapply fromlist_done_registry_mono; [done|].
    by eapply submodule_import_registered.
Qed.

Lemma import_query_engine_succeeds v r st' :
  sibling_provides env st v ->
  import_query_engine env p st r st' ->
  r = inr tt /\ getattr st' p "QueryEngine" = Some v.
Proof.
  intros Hprov Hrun.
  assert (Hsib : forall r1 st1,
    submodule_import env sibling_name "query_engine" p st r1 st1 ->
    exists s, r1 = inr s /\ getattr st1 s "QueryEngine" = Some v /\
              is_Some (objects st1 !! p)).
  { intros r1 st1 Hsib.
    destruct Hprov as [s Hs Hv|fm b Hs Hfind Hbody Hv];
      inversion Hsib; subst; try congruence.
    - exists s. split; [congruence|]. by eauto.
    - eexists. split; [done|].
      assert (Hne : fresh (dom (objects st)) ≠ p)
        by (apply not_eq_sym; by eapply fresh_object_ne).
      unfold getattr. cbn [objects].
      rewrite lookup_alter_ne, lookup_insert_eq by done.
      rewrite lookup_alter_eq, lookup_insert_ne, Hp by done. cbn.
      split; [|by eauto].
      replace fm0 with fm in * by congruence.
      replace b0 with b in * by congruence.
      by apply lookup_union_Some_l. }
  assert (Hdone : forall s st1 st2,
    getattr st1 s "QueryEngine" = Some v -> fromlist_done env s st1 st2 -> st2 = st1).
  { intros s st1 st2 Hv. destruct 1 as [| |? _ Hattr _|? ? _ Hattr _]; try done.
    - apply hasattr_false in Hattr. congruence.
    - apply hasattr_false in Hattr. congruence. }
  destruct Hrun as [e st1 Hs|s st1 e st2 Hs _ Hattr _ _|s st1 st2 Hs Hd Hnone
                   |s st1 st2 v' Hs Hd Hv'].
  - destruct (Hsib _ _ Hs) as (? & ? & _). done.
  - destruct (Hsib _ _ Hs) as (s' & [= <-] & Hv & _).
    apply hasattr_false in Hattr. congruence.
  - destruct (Hsib _ _ Hs) as (s' & [= <-] & Hv & _).
    rewrite (Hdone _ _ _ Hv Hd) in Hnone. congruence.
  - destruct (Hsib _ _ Hs) as (s' & [= <-] & Hv & [nsp1 Hp1]).
    rewrite (Hdone _ _ _ Hv Hd) in *. split; [done|].
    unfold getattr. cbn [objects]. rewrite lookup_alter_eq, Hp1. cbn.
    rewrite lookup_insert_eq. congruence.
Qed.
End ImportStatementOutcome.

(** ** Loading the package *)

Lemma prelude_has_path env st :
  hasattr (prelude_state env st) (package_object st) "__path__" = true.
Proof.
  apply hasattr_true. unfold getattr. rewrite prelude_package. cbn. eauto.
Qed.

Lemma prelude_registry env st k :
  k ≠ package_name ->
  sys_modules (prelude_state env st) !! k = sys_modules st !! k.
Proof. intros Hk. unfold prelude_state. cbn. by rewrite lookup_insert_ne. Qed.

Lemma prelude_objects env st l ns :
  objects st !! l = Some ns -> objects (prelude_state env st) !! l = Some ns.
Proof.
  intros Hl. unfold prelude_state. cbn. rewrite lookup_insert_ne; [done|].
  symmetry. by eapply fresh_object_ne.
Qed.

(** The package namespace after a successful load. *)
Lemma load_package_success env st p st' :
  load_package env st = (inr p, st') ->
  p = package_object st /\
  sys_modules st' !! package_name = Some p /\
  exists s v,
    sys_modules st' !! sibling_name = Some s /\
    getattr st' s "QueryEngine" = Some v /\
    namespace_of st' p =
      <["QueryEngine" := v]>
        (match sys_modules st !! sibling_name with
         | Some _ => prelude_ns env
         | None => <["query_engine" := VModule s]> (prelude_ns env)
         end).
Proof.
  intros Hload. apply load_package_runs in Hload as (r1 & st1 & Hrun & Hres).
  destruct r1 as [e|[]]; destruct Hres as [Hr ->]; [done|].
  injection Hr as ->. split; [done|]. split.
  { eapply import_query_engine_registry_mono; [done|]. apply prelude_registered. }
  destruct (import_query_engine_bound env _ _ _ (prelude_package env st) _ Hrun)
    as (s & v & Hs & Hv & Hns).
  exists s, v. split; [done|]. split; [done|].
  unfold namespace_of. rewrite Hns. cbn [default from_option id]. f_equal.
  rewrite prelude_registry by done.
  destruct (sys_modules st !! sibling_name) as [s0|].
  - rewrite decide_True; eauto.
  - rewrite decide_False; [done|]. by intros [? ?].
Qed.

Lemma load_package_failure env st e st' :
  load_package env st = (inl e, st') -> import_failure env st st' e.
Proof.
  intros Hload. apply load_package_runs in Hload as (r1 & st1 & Hrun & Hres).
  destruct r1 as [e1|[]]; destruct Hres as [Hr ->]; [|done].
  injection Hr as ->.
  apply (import_query_engine_failure env _ _ _ (prelude_package env st)
           (prelude_has_path env st)) in Hrun.
  destruct Hrun as [Hs Hf|fm e Hs Hf Hb|fm e Hf Hb|s from Hs Hv].
  - apply sibling_not_found; [|done]. by rewrite <- (prelude_registry env) by done.
  - eapply sibling_body_raised; [|done..]. by rewrite <- (prelude_registry env) by done.
  - by eapply submodule_body_raised.
  - eapply attribute_missing; [|done]. cbn. by rewrite lookup_delete_ne.
Qed.

Lemma sibling_provides_prelude env st v :
  sibling_provides env st v -> sibling_provides env (prelude_state env st) v.
Proof.
  destruct 1 as [s Hs Hv|fm b Hs Hf Hb Hv].
  - eapply provided_registered; [by rewrite prelude_registry|].
    unfold getattr in *. destruct (objects st !! s) as [ns|] eqn:Hobj; [|done].
    by rewrite (prelude_objects env st s ns).
  - eapply provided_found; [by rewrite prelude_registry|done..].
Qed.

Lemma load_package_succeeds env st v :
  sibling_provides env st v ->
  exists st', load_package env st = (inr (package_object st), st') /\
              getattr st' (package_object st) "QueryEngine" = Some v.
Proof.
  intros Hprov. destruct (load_package env st) as [r st'] eqn:Hload.
  apply load_package_runs in Hload as (r1 & st1 & Hrun & Hres).
  destruct (import_query_engine_succeeds env _ _ _ (prelude_package env st)
              (prelude_has_path env st) v _ _
              (sibling_provides_prelude _ _ _ Hprov) Hrun) as [-> Hv].
  destruct Hres as [-> ->]. by exists st1.
Qed.

Lemma prelude_ns_lookup env x :
  x ≠ "__version__" -> x ≠ "__date__" -> x ≠ "__author__" -> x ≠ "__doc__" ->
  prelude_ns env !! x =
    module_attrs package_name (package_dir env +:+ "/__init__.py")
                 (Some [package_dir env]) !! x.
Proof. intros. unfold prelude_ns. by rewrite !lookup_insert_ne. Qed.

(** The bindings of a loaded package, name by name. *)
Lemma load_package_lookup env st p st' x :
  load_package env st = (inr p, st') ->
  x ≠ "QueryEngine" -> x ≠ "query_engine" ->
  namespace_of st' p !! x = prelude_ns env !! x.
Proof.
  intros Hload Hx1 Hx2.
  destruct (load_package_success _ _ _ _ Hload) as (_ & _ & s & v & _ & _ & ->).
  rewrite lookup_insert_ne by done.
  destruct (sys_modules st !! sibling_name); [done|]. by rewrite lookup_insert_ne.
Qed.

Lemma load_package_query_engine env st p st' :
  load_package env st = (inr p, st') ->
  exists s v,
    sys_modules st' !! sibling_name = Some s /\
    getattr st' s "QueryEngine" = Some v /\
    namespace_of st' p !! "QueryEngine" = Some v.
Proof.
  intros Hload.
  destruct (load_package_success _ _ _ _ Hload) as (_ & _ & s & v & Hs & Hv & ->).
  exists s, v. by rewrite lookup_insert_eq.
Qed.

(** ** The metadata bindings *)

(** C1.  After the initialisation module has been evaluated, the attribute
    [__version__] of the package is bound, and it is the string "0.4.3". *)
Theorem version_is_bound env st p st' :
  load_package env st = (inr p, st') ->
  namespace_of st' p !! "__version__" = Some (VStr "0.4.3").
Proof.
  intros Hload. by rewrite (load_package_lookup _ _ _ _ _ Hload).
Qed.

Lemma version_is_bound_witness :
  namespace_of (load_package env_with_sibling st_empty).2 1%positive
    !! "__version__" = Some (VStr "0.4.3").
Proof.
  apply (version_is_bound env_with_sibling st_empty).
  vm_compute. reflexivity.
Defined.

(** C7.  After the initialisation module has been evaluated, [__author__] is
    bound to the string "Shyue Ping Ong, Dan Gunter" and [__date__] to the
    string "Oct 9 2014". *)
Theorem author_and_date_are_bound env st p st' :
  load_package env st = (inr p, st') ->
  namespace_of st' p !! "__author__" = Some (VStr "Shyue Ping Ong, Dan Gunter") /\
  namespace_of st' p !! "__date__" = Some (VStr "Oct 9 2014").
Proof.
  intros Hload. by rewrite !(load_package_lookup _ _ _ _ _ Hload).
Qed.

Lemma author_and_date_are_bound_witness :
  namespace_of (load_package env_with_sibling st_empty).2 1%positive
    !! "__author__" = Some (VStr "Shyue Ping Ong, Dan Gunter") /\
  namespace_of (load_package env_with_sibling st_empty).2 1%positive
    !! "__date__" = Some (VStr "Oct 9 2014").
Proof.
  apply (author_and_date_are_bound env_with_sibling st_empty).
  vm_compute. reflexivity.
Defined.

(** ** The re-export *)

Lemma public_names_insert ns x v :
  public_names (<[x := v]> ns) =
    (if starts_with_underscore x then ∅ else {[x]}) ∪ public_names ns.
Proof.
  unfold public_names. apply set_eq. intros y.
  rewrite elem_of_union, !elem_of_filter, dom_insert_L, elem_of_union,
    elem_of_singleton.
  destruct (starts_with_underscore x) eqn:Hx.
  - rewrite elem_of_empty. intuition (subst; congruence).
  - rewrite elem_of_singleton. intuition (subst; congruence).
Qed.

Lemma public_names_empty : public_names ∅ = ∅.
Proof.
  unfold public_names. apply set_eq. intros y.
  rewrite elem_of_filter, dom_empty_L, !elem_of_empty. tauto.
Qed.

Lemma public_names_prelude env : public_names (prelude_ns env) = ∅.
Proof.
  unfold prelude_ns, module_attrs.
  rewrite !public_names_insert, public_names_empty. cbn. set_solver.
Qed.

(** The public names of a loaded package. *)
Lemma load_package_public_names env st p st' :
  load_package env st = (inr p, st') ->
  public_names (namespace_of st' p) =
    {["QueryEngine"]} ∪
    (match sys_modules st !! sibling_name with
     | Some _ => ∅
     | None => {["query_engine"]}
     end).
Proof.
  intros Hload.
  destruct (load_package_success _ _ _ _ Hload) as (_ & _ & s & v & _ & _ & ->).
  rewrite public_names_insert. cbn.
  destruct (sys_modules st !! sibling_name).
  - by rewrite public_names_prelude.
  - rewrite public_names_insert, public_names_prelude. cbn. set_solver.
Qed.

(** C2.  The package's public surface contains the name [QueryEngine], and
    the package attribute of that name is the attribute [QueryEngine] of the
    sibling module registered as [matgendb.query_engine]: the same value,
    hence, for an object, the same identity. *)
Theorem query_engine_is_reexported env st p st' :
  load_package env st = (inr p, st') ->
  "QueryEngine" ∈ public_names (namespace_of st' p) /\
  exists s v,
    sys_modules st' !! sibling_name = Some s /\
    getattr st' s "QueryEngine" = Some v /\
    getattr st' p "QueryEngine" = Some v.
Proof.
  intros Hload. split.
  - rewrite (load_package_public_names _ _ _ _ Hload). set_solver.
  - destruct (load_package_query_engine _ _ _ _ Hload) as (s & v & Hs & Hv & Hp).
    exists s, v. split; [done|]. split; [done|].
    unfold getattr, namespace_of in *.
    destruct (objects st' !! p); [done|]. cbn in Hp. by rewrite lookup_empty in Hp.
Qed.

Lemma query_engine_is_reexported_witness :
  "QueryEngine" ∈ public_names
     (namespace_of (load_package env_with_sibling st_empty).2 1%positive) /\
  exists s v,
    sys_modules (load_package env_with_sibling st_empty).2 !! sibling_name = Some s /\
    getattr (load_package env_with_sibling st_empty).2 s "QueryEngine" = Some v /\
    getattr (load_package env_with_sibling st_empty).2 1%positive "QueryEngine" = Some v.
Proof.
  apply (query_engine_is_reexported env_with_sibling st_empty).
  vm_compute. reflexivity.
Defined.

(** ** The names the initialisation binds *)


(** ** The star-import surface *)



(** ** Failure of the import *)

(** [import matgendb] in an interpreter that has not imported the package
    yet loads it. *)
Lemma import_package_fresh env st :
  sys_modules st !! package_name = None ->
  import_package env st = load_package env st.
Proof. intros Hnone. unfold import_package, bind, get. by rewrite Hnone. Qed.

Lemma import_package_registered env st m :
  sys_modules st !! package_name = Some m ->
  import_package env st = (inr m, st).
Proof. intros Hm. unfold import_package, bind, get. by rewrite Hm. Qed.

(** C3 (as amended).  In every environment in which the sibling module
    [query_engine] is available and defines [QueryEngine] (it is registered
    with that attribute, or it is found and its body binds the name), the
    import of the package succeeds and yields an attribute [QueryEngine],
    with the value the sibling gives it. *)
Theorem import_succeeds_when_sibling_provides env st v :
  sys_modules st !! package_name = None ->
  sibling_provides env st v ->
  exists p st',
    import_package env st = (inr p, st') /\
    getattr st' p "QueryEngine" = Some v.
Proof.
  intros Hfresh Hprov. rewrite (import_package_fresh env st Hfresh).
  destruct (load_package_succeeds env st v Hprov) as (st' & Hload & Hv).
  by exists (package_object st), st'.
Qed.

Lemma import_succeeds_when_sibling_provides_witness :
  exists p st',
    import_package env_with_sibling st_empty = (inr p, st') /\
    getattr st' p "QueryEngine" = Some (VObj 1).
Proof.
  apply (import_succeeds_when_sibling_provides env_with_sibling st_empty).
  - reflexivity.
  - apply (provided_found _ _ _ query_engine_module
             (<["QueryEngine" := VObj 1]> (<["pymongo" := VObj 2]> ∅)));
      reflexivity.
Defined.

(** C3, as stated, fails: where the sibling module cannot be found, the
    import of the package raises. *)
Lemma import_raises_without_sibling :
  (import_package env_without_sibling st_empty).1 =
    inl (ModuleNotFoundError "matgendb.query_engine").
Proof. vm_compute. reflexivity. Qed.

(** Constant bindings never raise, whatever the state they run in; they
    leave the registry and every other object as they were. *)
Lemma exec_constant_bindings env self body st :
  forallb is_constant_binding body = true ->
  exists st',
    exec_block env self body st = (inr tt, st') /\
    sys_modules st' = sys_modules st /\
    forall l, l ≠ self -> objects st' !! l = objects st !! l.
Proof.
  revert st. induction body as [|s body IH]; intros st Hall.
  { by exists st. }
  cbn in Hall. apply andb_prop in Hall as [Hs Hbody].
  cbn [exec_block]. unfold bind at 1.
  destruct s as [[d|x]|target [d|x]|level modname names]; try discriminate Hs.
  - cbn. apply IH, Hbody.
  - cbn. destruct (IH (Interp (alter (fun ns => <[target := VStr d]> ns) self
                                 (objects st)) (sys_modules st)) Hbody)
      as (st' & Hrun & Hreg & Hobj).
    exists st'. split; [done|]. split; [done|].
    intros l Hl. rewrite (Hobj l Hl). cbn. by rewrite lookup_alter_ne.
Qed.

(** C5 (as amended).  Every statement of the file is a constant binding or
    an import, and constant bindings cannot raise.  The import can: an
    exception raised by the initialisation is that of the import statement,
    which fails when the sibling module is not found, when the body of the
    sibling (or of a submodule tried for the name) raises, or when the
    sibling has no attribute [QueryEngine]. *)
Theorem only_the_import_can_raise env st e st' :
  load_package env st = (inl e, st') ->
  forallb (fun s => is_constant_binding s || is_import s) matgendb_init = true /\
  (forall self body st0,
     forallb is_constant_binding body = true ->
     (exec_block env self body st0).1 = inr tt) /\
  import_failure env st st' e.
Proof.
  intros Hload. split; [done|]. split.
  - intros self body st0 Hall.
    destruct (exec_constant_bindings env self body st0 Hall) as (st1 & -> & _).
    done.
  - by apply load_package_failure.
Qed.

Lemma only_the_import_can_raise_witness :
  forallb (fun s => is_constant_binding s || is_import s) matgendb_init = true /\
  (forall self body st0,
     forallb is_constant_binding body = true ->
     (exec_block env_without_sibling self body st0).1 = inr tt) /\
  import_failure env_without_sibling st_empty
    (load_package env_without_sibling st_empty).2
    (ModuleNotFoundError "matgendb.query_engine").
Proof.
  apply (only_the_import_can_raise env_without_sibling st_empty).
  vm_compute. reflexivity.
Defined.

(** C5, as stated, fails: with no module to be found anywhere, so that no
    code of another module runs, the initialisation still raises. *)
Lemma initialisation_raises_on_its_own :
  (load_package env_without_sibling st_empty).1 =
    inl (ModuleNotFoundError "matgendb.query_engine") /\
  (forall name, finder env_without_sibling name = None).
Proof. split; [vm_compute; reflexivity | done]. Qed.

(** ** What the import leaves untouched *)

Lemma load_package_registry_mono env st r st' k m :
  load_package env st = (r, st') ->
  sys_modules st !! package_name = None ->
  sys_modules st !! k = Some m -> sys_modules st' !! k = Some m.
Proof.
  intros Hload Hfresh Hk.
  assert (k ≠ package_name) as Hne by congruence.
  apply load_package_runs in Hload as (r1 & st1 & Hrun & Hres).
  assert (sys_modules st1 !! k = Some m) as Hk1.
  { eapply import_query_engine_registry_mono; [done|]. by rewrite prelude_registry. }
  destruct r1; destruct Hres as [_ ->]; [|done].
  cbn. by rewrite lookup_delete_ne.
Qed.

(** C6, as stated, fails: importing the package in a fresh interpreter
    creates a second module object and registers it, and binds in the package
    a fifth name, that of the sibling. *)
Lemma import_changes_the_registry :
  sys_modules st_empty !! sibling_name = None /\
  (import_package env_with_sibling st_empty).1 = inr 1%positive /\
  sys_modules (import_package env_with_sibling st_empty).2 !! sibling_name =
    Some 2%positive /\
  namespace_of (import_package env_with_sibling st_empty).2 1%positive
    !! "query_engine" = Some (VModule 2%positive).
Proof. repeat split; vm_compute; reflexivity. Qed.

(** ** Determinism *)

(** C8.  The bindings the initialisation produces are a function of the
    sibling module alone: two evaluations, in whatever environments and
    interpreter states, that end with the same sibling module registered end
    with the same [__author__], [__date__], [__version__] and
    [QueryEngine]. *)
Theorem initialisation_is_deterministic env1 st1 p1 st1' env2 st2 p2 st2' :
  load_package env1 st1 = (inr p1, st1') ->
  load_package env2 st2 = (inr p2, st2') ->
  sibling_of st1' = sibling_of st2' ->
  Forall (fun x => namespace_of st1' p1 !! x = namespace_of st2' p2 !! x)
         ["__author__"; "__date__"; "__version__"; "QueryEngine"].
Proof.
  intros Hload1 Hload2 Hsib.
  repeat constructor;
    try by rewrite (load_package_lookup _ _ _ _ _ Hload1),
                   (load_package_lookup _ _ _ _ _ Hload2).
  destruct (load_package_query_engine _ _ _ _ Hload1) as (s1 & v1 & Hs1 & Hv1 & Hq1).
  destruct (load_package_query_engine _ _ _ _ Hload2) as (s2 & v2 & Hs2 & Hv2 & Hq2).
  rewrite Hq1, Hq2.
  unfold sibling_of, getattr in *. rewrite Hs1, Hs2 in Hsib. cbn in Hsib.
  rewrite Hsib in Hv1. congruence.
Qed.

Lemma initialisation_is_deterministic_witness :
  Forall (fun x =>
            namespace_of (load_package env_with_sibling st_empty).2 1%positive !! x =
            namespace_of (load_package env_elsewhere st_busy).2 2%positive !! x)
         ["__author__"; "__date__"; "__version__"; "QueryEngine"].
Proof.
  apply (initialisation_is_deterministic env_with_sibling st_empty _ _
                                         env_elsewhere st_busy).
  - vm_compute. reflexivity.
  - vm_compute. reflexivity.
  - vm_compute. reflexivity.
Defined.

(** * Further properties of the initialisation *)

(** ** The docstring *)

(** X1.  After the initialisation module has been evaluated, the package's
    [__doc__] is the docstring the file opens with, in place of the [None]
    the module object is created with. *)
Theorem docstring_is_bound env st p st' :
  load_package env st = (inr p, st') ->
  namespace_of st' p !! "__doc__" = Some (VStr docstring) /\
  package_attrs env !! "__doc__" = Some VNone.
Proof.
  intros Hload. by rewrite (load_package_lookup _ _ _ _ _ Hload).
Qed.

Lemma docstring_is_bound_witness :
  namespace_of (load_package env_with_sibling st_empty).2 1%positive
    !! "__doc__" = Some (VStr docstring) /\
  package_attrs env_with_sibling !! "__doc__" = Some VNone.
Proof.
  apply (docstring_is_bound env_with_sibling st_empty).
  vm_compute. reflexivity.
Defined.

(** ** Importing twice *)

(** X3.  Importing is idempotent: once the package has been imported, a
    further import, in whatever environment, returns the same module object
    and changes nothing. *)
Theorem import_is_idempotent env st p st' env' :
  import_package env st = (inr p, st') ->
  import_package env' st' = (inr p, st').
Proof.
  intros Himp. apply import_package_registered.
  destruct (sys_modules st !! package_name) as [m|] eqn:Hpkg.
  - rewrite (import_package_registered env st m Hpkg) in Himp.
    by injection Himp as <- <-.
  - rewrite (import_package_fresh env st Hpkg) in Himp.
    by destruct (load_package_success _ _ _ _ Himp) as (_ & Hreg & _).
Qed.

Lemma import_is_idempotent_witness :
  import_package env_without_sibling (import_package env_with_sibling st_empty).2 =
    (inr 1%positive, (import_package env_with_sibling st_empty).2).
Proof.
  apply (import_is_idempotent env_with_sibling st_empty).
  vm_compute. reflexivity.
Defined.

(** ** The relative import *)

Lemma split_on_nonempty c s : split_on c s ≠ [].
Proof.
  destruct s as [|a s]; cbn; [done|].
  destruct (Ascii.eqb a c); [done|]. by destruct (split_on c s).
Qed.

(** Joining what [split_on] gives restores the string. *)
Lemma concat_split_on s : String.concat "." (split_on dot s) = s.
Proof.
  induction s as [|a s IH]; [done|]. cbn [split_on].
  destruct (Ascii.eqb a dot) eqn:Ha.
  - apply Ascii.eqb_eq in Ha as ->.
    pose proof (split_on_nonempty dot s) as Hne.
    cbn [String.concat]. destruct (split_on dot s) as [|h t]; [done|].
    cbn [String.append]. by rewrite IH.
  - pose proof (split_on_nonempty dot s) as Hne.
    destruct (split_on dot s) as [|h t]; [done|].
    rewrite <- IH. by destruct t.
Qed.

Lemma dotted_rcomponents name : dotted (rcomponents name) = name.
Proof.
  unfold dotted, rcomponents. rewrite rev_involutive. apply concat_split_on.
Qed.

Lemma resolve_name_level_1 name package :
  name ≠ "" -> resolve_name name package 1 = inr (package +:+ "." +:+ name).
Proof.
  intros Hname. unfold resolve_name.
  pose proof (split_on_nonempty dot package) as Hne.
  rewrite decide_False by (destruct (split_on dot package); [done|cbn; lia]).
  rewrite Nat.sub_0_r, firstn_all, concat_split_on.
  by rewrite decide_False.
Qed.

Lemma find_and_load_registered env rcomps st m :
  sys_modules st !! dotted rcomps = Some m ->
  find_and_load env rcomps st = (inr m, st).
Proof.
  intros Hm. destruct rcomps as [|child rparent];
    cbn [find_and_load]; unfold bind, get; by rewrite Hm.
Qed.

Lemma absolute_name_relative ns P :
  ns !! "__package__" = Some (VStr P) -> P ≠ "" ->
  absolute_name ns "query_engine" 1 = inr (P +:+ ".query_engine").
Proof.
  intros Hpkg HP. unfold absolute_name, calc_package. rewrite Hpkg.
  rewrite decide_False by done. by rewrite resolve_name_level_1.
Qed.

(** The import statement where the module it names is registered and has
    the attribute. *)
Lemma import_stmt_registered env st self ns name s v :
  objects st !! self = Some ns ->
  absolute_name ns "query_engine" 1 = inr name ->
  sys_modules st !! name = Some s ->
  getattr st s "QueryEngine" = Some v ->
  import_stmt env self st =
    (inr tt, Interp (alter (fun ns => <["QueryEngine" := v]> ns) self (objects st))
                    (sys_modules st)).
Proof.
  intros Hself Habs Hs Hv.
  unfold import_stmt, exec_stmt, import_name.
  unfold bind at 1 2, get at 1. rewrite Hself.
  change (default ∅ (Some ns)) with ns. rewrite Habs.
  unfold lift at 1, bind at 1 2, gcd_import.
  rewrite (find_and_load_registered env _ st s) by (by rewrite dotted_rcomponents).
  unfold get at 1, bind at 1. cbn [handle_fromlist import_names].
  assert (Hattr : hasattr st s "QueryEngine" = true) by (apply hasattr_true; eauto).
  assert (Hfinish :
    (v0 <- import_from s "QueryEngine";; setattr self "QueryEngine" v0;;; ret ()) st =
    (inr tt, Interp (alter (fun ns => <["QueryEngine" := v]> ns) self (objects st))
                    (sys_modules st))).
  { cbv beta iota delta [bind get ret raise import_from setattr]. by rewrite Hv. }
  destruct (hasattr st s "__path__").
  - unfold import_submodule_if_missing. unfold bind at 1 2 3 4, get at 1.
    rewrite Hattr. unfold ret at 1 2 3. apply Hfinish.
  - unfold ret at 1 2, bind at 1 2. apply Hfinish.
Qed.

(** X4.  The import is relative to the package the file is part of: run in
    a module of any package [P], the statement names the module
    [P.query_engine]; where that module is imported and has the attribute,
    the statement binds the attribute as [QueryEngine], consults no finder
    and changes nothing else. *)
Theorem relative_import_follows_package env st self ns P s v :
  objects st !! self = Some ns ->
  ns !! "__package__" = Some (VStr P) ->
  P ≠ "" ->
  sys_modules st !! (P +:+ ".query_engine") = Some s ->
  getattr st s "QueryEngine" = Some v ->
  absolute_name ns "query_engine" 1 = inr (P +:+ ".query_engine") /\
  import_stmt env self st =
    (inr tt, Interp (alter (fun ns => <["QueryEngine" := v]> ns) self (objects st))
                    (sys_modules st)).
Proof.
  intros Hself Hpkg HP Hs Hv.
  pose proof (absolute_name_relative ns P Hpkg HP) as Habs.
  split; [done|]. by eapply import_stmt_registered.
Qed.

Lemma relative_import_follows_package_witness :
  absolute_name (<["__package__" := VStr "vendor.matgendb"]> ∅) "query_engine" 1 =
    inr "vendor.matgendb.query_engine" /\
  import_stmt env_without_sibling 1%positive st_vendored =
    (inr tt, Interp (alter (fun ns => <["QueryEngine" := VObj 1]> ns) 1%positive
                       (objects st_vendored))
                    (sys_modules st_vendored)).
Proof.
  apply (relative_import_follows_package env_without_sibling st_vendored 1%positive
           (<["__package__" := VStr "vendor.matgendb"]> ∅) "vendor.matgendb"
           2%positive (VObj 1)); [reflexivity|reflexivity|discriminate|reflexivity|reflexivity].
Defined.

(** ** The exact effect of a successful import *)



(** ** A sibling module that is missing, or that fails *)

Lemma import_query_engine_sibling_fails env p st e r st' :
  hasattr st p "__path__" = true ->
  sys_modules st !! sibling_name = None ->
  match finder env sibling_name with
  | None => e = ModuleNotFoundError sibling_name
  | Some fm => fm_body fm = Raises e
  end ->
  import_query_engine env p st r st' ->
  r = inl e /\ sys_modules st' = sys_modules st.
Proof.
  intros Hpath Hs Hfind Hrun.
  assert (Hsib : forall r1 st1,
    submodule_import env sibling_name "query_engine" p st r1 st1 ->
    r1 = inl e /\ sys_modules st1 = sys_modules st).
  { intros r1 st1 Himp.
    inversion Himp as [| | Hn Hp Hf | fm e' Hn Hp Hf Hb | fm b Hn Hp Hf Hb];
      subst; rewrite ?Hf in Hfind; try congruence.
    - by subst.
    - split; [congruence|done]. }
  destruct Hrun as [e' st1 Hi|s st1 e' st2 Hi _ _ _ _|s st1 st2 Hi _ _
                   |s st1 st2 v Hi _ _];
    destruct (Hsib _ _ Hi) as [Hr Hreg]; try discriminate Hr.
  by injection Hr as ->.
Qed.

Lemma import_fails_with_sibling env st e :
  sys_modules st !! package_name = None ->
  sys_modules st !! sibling_name = None ->
  match finder env sibling_name with
  | None => e = ModuleNotFoundError sibling_name
  | Some fm => fm_body fm = Raises e
  end ->
  exists st', import_package env st = (inl e, st') /\
              sys_modules st' = sys_modules st.
Proof.
  intros Hpkg Hs Hfind. rewrite (import_package_fresh env st Hpkg).
  destruct (load_package env st) as [r st'] eqn:Hload.
  apply load_package_runs in Hload as (r1 & st1 & Hrun & Hres).
  destruct (import_query_engine_sibling_fails env _ _ e _ _
              (prelude_has_path env st) ltac:(by rewrite prelude_registry)
              Hfind Hrun) as [-> Hreg].
  destruct Hres as [-> ->]. eexists. split; [done|].
  cbn [sys_modules]. rewrite Hreg. unfold prelude_state. cbn [sys_modules].
  by rewrite delete_insert_eq, delete_id.
Qed.

(** X8.  Where the package has not been imported and its sibling module is
    neither imported nor to be found, importing the package raises
    [ModuleNotFoundError] for [matgendb.query_engine] and leaves the registry
    as it was. *)
Theorem import_without_sibling_raises env st :
  sys_modules st !! package_name = None ->
  sys_modules st !! sibling_name = None ->
  finder env sibling_name = None ->
  exists st',
    import_package env st = (inl (ModuleNotFoundError "matgendb.query_engine"), st') /\
    sys_modules st' = sys_modules st.
Proof.
  intros Hpkg Hs Hfind. apply import_fails_with_sibling; [done..|].
  by rewrite Hfind.
Qed.

Lemma import_without_sibling_raises_witness :
  exists st',
    import_package env_without_sibling st_busy =
      (inl (ModuleNotFoundError "matgendb.query_engine"), st') /\
    sys_modules st' = sys_modules st_busy.
Proof.
  apply (import_without_sibling_raises env_without_sibling st_busy); reflexivity.
Defined.

(** * The package namespace and the frame of the import

    What loading the sibling module does besides binding its names (what it
    imports in turn) is outside the model.  The statements of this part are
    therefore of two kinds: lower bounds, which further bindings and further
    registry entries cannot falsify, and exact statements for the case in
    which no code of another module runs, the sibling being imported
    already with the attribute the file asks for. *)

Lemma import_query_engine_loaded_object env p st nsp st' :
  objects st !! p = Some nsp ->
  sys_modules st !! sibling_name = None ->
  import_query_engine env p st (inr tt) st' ->
  sys_modules st' !! sibling_name = Some (fresh (dom (objects st))).
Proof.
  intros Hp Hs. inversion 1 as [| | |s st1 st2 v Hsib Hdone Hv]; subst.
  cbn [sys_modules]. eapply fromlist_done_registry_mono; [done|].
  inversion Hsib; subst; [congruence|]. cbn. apply lookup_insert_eq.
Qed.

(** Where the sibling had to be loaded, the package holds it under its own
    name: the attribute [query_engine] is the module object registered as
    [matgendb.query_engine], an object other than the package. *)
Lemma load_package_sibling_bound env st p st' :
  load_package env st = (inr p, st') ->
  sys_modules st !! sibling_name = None ->
  exists s, sys_modules st' !! sibling_name = Some s /\ s ≠ p /\
            namespace_of st' p !! "query_engine" = Some (VModule s).
Proof.
  intros Hload Hs.
  destruct (load_package_success _ _ _ _ Hload) as (-> & _ & s & v & Hreg & _ & Hns).
  exists s. split; [done|]. split.
  - apply load_package_runs in Hload as (r1 & st1 & Hrun & Hres).
    destruct r1 as [e|[]]; destruct Hres as [Hr ->]; [done|].
    pose proof (import_query_engine_loaded_object env _ _ _ _
                  (prelude_package env st)
                  ltac:(by rewrite prelude_registry) Hrun) as Hobj.
    rewrite Hreg in Hobj. injection Hobj as ->.
    apply not_eq_sym.
    exact (fresh_object_ne (prelude_state env st) _ _ (prelude_package env st)).
  - rewrite Hns, Hs. by rewrite lookup_insert_ne, lookup_insert_eq.
Qed.

(** Every name the statements store is in the namespace of the loaded
    package. *)
Lemma load_package_bound_names env st p st' :
  load_package env st = (inr p, st') ->
  list_to_set (bound_names matgendb_init) ⊆ dom (namespace_of st' p).
Proof.
  intros Hload x Hx. apply elem_of_dom.
  destruct (load_package_query_engine _ _ _ _ Hload) as (s & v & _ & _ & Hqe).
  cbn in Hx. rewrite !elem_of_union, !elem_of_singleton, elem_of_empty in Hx.
  destruct Hx as [->|[->|[->|[->|[->|[]]]]]];
    rewrite ?Hqe, ?(load_package_lookup _ _ _ _ _ Hload) by done; by eexists.
Qed.

(** Loading the package where the sibling is imported already and has the
    attribute: the registry gains the package and nothing else, and the
    objects gain the package object and nothing else. *)
Lemma load_package_registered_frame env st s v r st' :
  sys_modules st !! sibling_name = Some s ->
  getattr st s "QueryEngine" = Some v ->
  load_package env st = (r, st') ->
  r = inr (package_object st) /\
  (forall l ns, objects st !! l = Some ns -> objects st' !! l = Some ns) /\
  (forall k, k ≠ package_name -> sys_modules st' !! k = sys_modules st !! k) /\
  dom (objects st') = {[package_object st]} ∪ dom (objects st) /\
  public_names (namespace_of st' (package_object st)) = {["QueryEngine"]}.
Proof.
  intros Hs Hv. rewrite load_package_unfold.
  rewrite (import_stmt_registered env (prelude_state env st) (package_object st)
             (prelude_ns env) sibling_name s v);
    [| apply prelude_package | done | by rewrite prelude_registry | ].
  2:{ unfold getattr in *. destruct (objects st !! s) as [ns|] eqn:Hobj; [|done].
      by rewrite (prelude_objects env st s ns). }
  intros [= <- <-]. unfold prelude_state, namespace_of. cbn [objects sys_modules].
  rewrite alter_insert_eq. split; [done|]. split; [|split; [|split]].
  - intros l ns Hl. rewrite lookup_insert_ne; [done|].
    symmetry. by eapply fresh_object_ne.
  - intros k Hk. by rewrite lookup_insert_ne.
  - by rewrite dom_insert_L.
  - rewrite lookup_insert_eq. cbn [default from_option id].
    rewrite public_names_insert, public_names_prelude. cbn.
    apply set_eq. intros x. rewrite elem_of_union, elem_of_empty. tauto.
Qed.

(** ** The names the initialisation binds, revisited *)



(** ** The star-import surface, revisited *)



(** ** What the import changes and what it keeps *)

(** C6 (as amended).  Every statement of the file is a constant binding or
    an import (no control flow, no call, no mutable value), and the constant
    bindings write nothing but the namespace they run in.  The import is not
    without effect outside the package module: it registers the package and,
    where the sibling module is not imported yet, loads and registers that
    too, binding in the package, besides [__author__], [__date__],
    [__version__] and [QueryEngine], the sibling's name [query_engine].  What
    it keeps: every entry the registry had; and, where the sibling is
    imported already with the attribute, everything but the package itself:
    the new package object and its registry entry are the only changes. *)
Theorem import_frame env st r st' :
  import_package env st = (r, st') ->
  forallb (fun s => is_constant_binding s || is_import s) matgendb_init = true /\
  (forall self body st0,
     forallb is_constant_binding body = true ->
     exists st1, exec_block env self body st0 = (inr tt, st1) /\
                 sys_modules st1 = sys_modules st0 /\
                 forall l, l ≠ self -> objects st1 !! l = objects st0 !! l) /\
  (forall k m, sys_modules st !! k = Some m -> sys_modules st' !! k = Some m) /\
  (forall p, r = inr p -> sys_modules st !! package_name = None ->
     sys_modules st' !! package_name = Some p /\
     {["__author__"; "__date__"; "__version__"; "QueryEngine"]}
       ⊆ dom (namespace_of st' p) /\
     (sys_modules st !! sibling_name = None ->
      exists s, sys_modules st' !! sibling_name = Some s /\ s ≠ p /\
                namespace_of st' p !! "query_engine" = Some (VModule s))) /\
  (forall s v, sys_modules st !! package_name = None ->
     sys_modules st !! sibling_name = Some s ->
     getattr st s "QueryEngine" = Some v ->
     r = inr (package_object st) /\
     (forall l ns, objects st !! l = Some ns -> objects st' !! l = Some ns) /\
     (forall k, k ≠ package_name -> sys_modules st' !! k = sys_modules st !! k) /\
     dom (objects st') = {[package_object st]} ∪ dom (objects st)).
Proof.
  intros Himp. split; [done|]. split; [by apply exec_constant_bindings|].
  destruct (sys_modules st !! package_name) as [m|] eqn:Hpkg.
  { rewrite (import_package_registered env st m Hpkg) in Himp.
    injection Himp as <- <-. by repeat split. }
  rewrite (import_package_fresh env st Hpkg) in Himp.
  split; [|split].
  - intros k m. by apply (load_package_registry_mono _ _ _ _ _ _ Himp).
  - intros p -> _.
    destruct (load_package_success _ _ _ _ Himp) as (_ & Hreg & _).
    split; [done|]. split.
    + pose proof (load_package_bound_names _ _ _ _ Himp) as Hsub.
      intros x Hx. apply Hsub. cbn.
      rewrite !elem_of_union, !elem_of_singleton in Hx.
      rewrite !elem_of_union, !elem_of_singleton. tauto.
    + intros Hs. by apply (load_package_sibling_bound _ _ _ _ Himp).
  - intros s v _ Hs Hv.
    destruct (load_package_registered_frame env st s v _ _ Hs Hv Himp)
      as (Hr & Hobj & Hsm & Hdom & _).
    done.
Qed.

Lemma import_frame_witness :
  forallb (fun s => is_constant_binding s || is_import s) matgendb_init = true /\
  (forall self body st0,
     forallb is_constant_binding body = true ->
     exists st1, exec_block env_with_sibling self body st0 = (inr tt, st1) /\
                 sys_modules st1 = sys_modules st0 /\
                 forall l, l ≠ self -> objects st1 !! l = objects st0 !! l) /\
  (forall k m, sys_modules st_busy !! k = Some m ->
               sys_modules (import_package env_with_sibling st_busy).2 !! k = Some m) /\
  (forall p, (import_package env_with_sibling st_busy).1 = inr p ->
     sys_modules st_busy !! package_name = None ->
     sys_modules (import_package env_with_sibling st_busy).2 !! package_name = Some p /\
     {["__author__"; "__date__"; "__version__"; "QueryEngine"]}
       ⊆ dom (namespace_of (import_package env_with_sibling st_busy).2 p) /\
     (sys_modules st_busy !! sibling_name = None ->
      exists s, sys_modules (import_package env_with_sibling st_busy).2 !! sibling_name
                  = Some s /\ s ≠ p /\
                namespace_of (import_package env_with_sibling st_busy).2 p
                  !! "query_engine" = Some (VModule s))) /\
  (forall s v, sys_modules st_busy !! package_name = None ->
     sys_modules st_busy !! sibling_name = Some s ->
     getattr st_busy s "QueryEngine" = Some v ->
     (import_package env_with_sibling st_busy).1 = inr (package_object st_busy) /\
     (forall l ns, objects st_busy !! l = Some ns ->
                   objects (import_package env_with_sibling st_busy).2 !! l = Some ns) /\
     (forall k, k ≠ package_name ->
                sys_modules (import_package env_with_sibling st_busy).2 !! k =
                  sys_modules st_busy !! k) /\
     dom (objects (import_package env_with_sibling st_busy).2) =
       {[package_object st_busy]} ∪ dom (objects st_busy)).
Proof.
  apply (import_frame env_with_sibling st_busy).
  vm_compute. reflexivity.
Defined.

(** ** A sibling module without the class, or one that fails *)

Lemma import_query_engine_no_attribute env p st nsp fm b r st' :
  objects st !! p = Some nsp ->
  hasattr st p "__path__" = true ->
  sys_modules st !! sibling_name = None ->
  finder env sibling_name = Some fm ->
  fm_search fm = None ->
  fm_body fm = Returns b ->
  b !! "QueryEngine" = None ->
  b !! "__name__" = None ->
  b !! "__path__" = None ->
  import_query_engine env p st r st' ->
  r = inl (CannotImportName "QueryEngine" "matgendb.query_engine") /\
  sys_modules st' = <[sibling_name := fresh (dom (objects st))]> (sys_modules st).
Proof.
  intros Hp Hpath Hs Hf Hsearch Hb Hqe Hname Hbpath Hrun.
  set (s := fresh (dom (objects st))).
  assert (Hps : p ≠ s) by (by eapply fresh_object_ne).
  assert (Hsib : forall r1 st1,
    submodule_import env sibling_name "query_engine" p st r1 st1 ->
    r1 = inr s /\
    sys_modules st1 = <[sibling_name := s]> (sys_modules st) /\
    objects st1 !! s =
      Some (b ∪ module_attrs sibling_name (fm_origin fm) None)).
  { intros r1 st1 Himp. inversion Himp; subst; try congruence.
    replace fm0 with fm in * by congruence.
    replace b0 with b in * by congruence.
    split; [done|]. split; [done|]. cbn [objects]. fold s.
    by rewrite lookup_alter_ne, lookup_insert_eq, Hsearch by done. }
  assert (Hlookup : forall x, b !! x = None ->
    (b ∪ module_attrs sibling_name (fm_origin fm) None) !! x =
    module_attrs sibling_name (fm_origin fm) None !! x).
  { intros x Hx. by apply lookup_union_r. }
  assert (Hattrs : forall st1,
    objects st1 !! s = Some (b ∪ module_attrs sibling_name (fm_origin fm) None) ->
    hasattr st1 s "__path__" = false /\ getattr st1 s "QueryEngine" = None /\
    module_name st1 s = Some "matgendb.query_engine").
  { intros st1 Hobj. split; [apply hasattr_false|split];
      unfold module_name, getattr; rewrite Hobj; cbn; by rewrite Hlookup. }
  assert (Hdone : forall st1 st2,
    hasattr st1 s "__path__" = false -> fromlist_done env s st1 st2 -> st2 = st1).
  { intros st1 st2 Hnp. destruct 1; congruence. }
  destruct Hrun as [e st1 Hi|s' st1 e st2 Hi Hpkg _ _ _|s' st1 st2 Hi Hd Hnone
                   |s' st1 st2 v' Hi Hd Hv'];
    destruct (Hsib _ _ Hi) as (Hr & Hreg & Hobj); try done; injection Hr as ->;
    destruct (Hattrs _ Hobj) as (Hnp & Hnone' & Hmod).
  - congruence.
  - rewrite (Hdone _ _ Hnp Hd). by rewrite Hmod.
  - rewrite (Hdone _ _ Hnp Hd) in Hv'. congruence.
Qed.

(** X7.  Where [query_engine] has to be loaded and is found as a plain
    module whose body runs to completion without binding [QueryEngine] (nor
    a module-level [__getattr__], and leaving its [__name__] alone), and no
    module is registered under the name [matgendb.query_engine.QueryEngine],
    loading the package raises the [ImportError] for a name that cannot be
    imported from [matgendb.query_engine]; the package is not registered,
    and the sibling module, which was loaded, stays imported. *)
Theorem load_raises_without_the_name env st fm b :
  sys_modules st !! sibling_name = None ->
  sys_modules st !! submodule_name = None ->
  finder env sibling_name = Some fm ->
  fm_search fm = None ->
  fm_body fm = Returns b ->
  b !! "QueryEngine" = None ->
  b !! "__getattr__" = None ->
  b !! "__name__" = None ->
  b !! "__path__" = None ->
  exists st',
    load_package env st =
      (inl (CannotImportName "QueryEngine" "matgendb.query_engine"), st') /\
    sys_modules st' !! package_name = None /\
    sys_modules st' !! sibling_name = Some (sibling_object env st).
Proof.
  intros Hs _ Hf Hsearch Hb Hqe _ Hname Hpath.
  destruct (load_package env st) as [r st'] eqn:Hload.
  apply load_package_runs in Hload as (r1 & st1 & Hrun & Hres).
  destruct (import_query_engine_no_attribute env _ _ _ fm b _ _
              (prelude_package env st) (prelude_has_path env st)
              ltac:(by rewrite prelude_registry) Hf Hsearch Hb Hqe Hname Hpath Hrun)
    as [-> Hreg].
  destruct Hres as [-> ->]. eexists. split; [done|].
  cbn [sys_modules]. rewrite Hreg. split.
  - apply lookup_delete_eq.
  - rewrite lookup_delete_ne by done. apply lookup_insert_eq.
Qed.

Lemma load_raises_without_the_name_witness :
  exists st',
    load_package env_without_class st_empty =
      (inl (CannotImportName "QueryEngine" "matgendb.query_engine"), st') /\
    sys_modules st' !! package_name = None /\
    sys_modules st' !! sibling_name = Some (sibling_object env_without_class st_empty).
Proof.
  apply (load_raises_without_the_name env_without_class st_empty
           (FoundModule "/site/matgendb/query_engine.py" None
              (Returns (<["pymongo" := VObj 2]> ∅)))
           (<["pymongo" := VObj 2]> ∅)); reflexivity.
Defined.

(** X9.  Where the sibling module is found but its body raises, importing
    the package raises that same exception, and afterwards neither the
    package nor the sibling is registered: a later import starts over. *)
Theorem sibling_failure_propagates env st fm e :
  sys_modules st !! package_name = None ->
  sys_modules st !! sibling_name = None ->
  finder env sibling_name = Some fm ->
  fm_body fm = Raises e ->
  exists st',
    import_package env st = (inl e, st') /\
    sys_modules st' !! package_name = None /\
    sys_modules st' !! sibling_name = None.
Proof.
  intros Hpkg Hs Hfind Hbody.
  destruct (import_fails_with_sibling env st e Hpkg Hs) as (st' & Himp & Hreg).
  { by rewrite Hfind. }
  exists st'. by rewrite Hreg.
Qed.

Lemma sibling_failure_propagates_witness :
  exists st',
    import_package env_broken_sibling st_busy =
      (inl (ModuleNotFoundError "pymongo"), st') /\
    sys_modules st' !! package_name = None /\
    sys_modules st' !! sibling_name = None.
Proof.
  apply (sibling_failure_propagates env_broken_sibling st_busy
           (FoundModule "/site/matgendb/query_engine.py" None
              (Raises (ModuleNotFoundError "pymongo")))); reflexivity.
Defined.
